(** * FeedbackModal.tsx: the feedback dialog of the web client

    A shallow embedding of
    [frontend/src/components/modals/feedback/FeedbackModal.tsx]:
    the email validity predicate (a regular expression test), the dialog's
    local state and rendering contract, and the submission handler
    [handleSendFeedback] with its side effects on local storage, the
    notification service and the remote feedback service. *)

From Stdlib Require Import NArith ZArith Ascii String List Bool Lia.
From stdpp Require Import base option list strings gmap.

Local Open Scope N_scope.
Set Warnings "-register-all".

(** ** JavaScript strings

    A JavaScript string is a sequence of UTF-16 code units.  The regular
    expression of the source has no [u] flag, so it matches code unit by
    code unit. *)

Definition code_unit := N.
Abbreviation jsstring := (list N).

(** An ASCII literal of the source, as code units. *)
Definition lit (s : string) : jsstring :=
  map N_of_ascii (list_ascii_of_string s).

Definition CH_AT : code_unit := 64.
Definition CH_DOT : code_unit := 46.

(** The set of [\s]: ECMAScript WhiteSpace and LineTerminator code points. *)
Definition isWhiteSpace (c : code_unit) : bool :=
  (c =? 9) || (c =? 10) || (c =? 11) || (c =? 12) || (c =? 13) || (c =? 32)
  || (c =? 160) || (c =? 5760)
  || ((8192 <=? c) && (c <=? 8202))
  || (c =? 8232) || (c =? 8233) || (c =? 8239) || (c =? 8287)
  || (c =? 12288) || (c =? 65279).

(** ** The regular expression fragment of the source

    [/^[^\s@]+@[^\s@]+\.[^\s@]+$/] uses the two anchors, literal characters,
    negated character classes containing [\s] and a literal, and the greedy
    quantifier [+]. *)

Module RegExp.

Inductive class_atom : Type :=
| ClassEscape_s
| ClassChar (c : code_unit).

Inductive atom : Type :=
| PatternChar (c : code_unit)
| CharClass (negated : bool) (items : list class_atom).

Inductive quantifier : Type :=
| Once
| OneOrMore.

Inductive term : Type :=
| AssertStart
| AssertEnd
| Quantified (a : atom) (q : quantifier).

Definition pattern := list term.

Definition class_atom_matches (i : class_atom) (c : code_unit) : bool :=
  match i with
  | ClassEscape_s => isWhiteSpace c
  | ClassChar d => c =? d
  end.

Definition atom_matches (a : atom) (c : code_unit) : bool :=
  match a with
  | PatternChar d => c =? d
  | CharClass negated items =>
      xorb negated (existsb (fun i => class_atom_matches i c) items)
  end.

(** Greedy [a+] followed by the continuation [k]: take one character, then
    first try to take more, then try the rest of the pattern. *)
Fixpoint repeat_plus (a : atom) (k : jsstring -> bool) (s : jsstring) : bool :=
  match s with
  | [] => false
  | c :: s' => atom_matches a c && (repeat_plus a k s' || k s')
  end.

(** Backtracking matcher at one position; [at_start] says whether the
    position is the beginning of the input. *)
Fixpoint match_terms (ts : pattern) (at_start : bool) (s : jsstring) : bool :=
  match ts with
  | [] => true
  | AssertStart :: ts' => at_start && match_terms ts' at_start s
  | AssertEnd :: ts' =>
      match s with
      | [] => match_terms ts' at_start s
      | _ :: _ => false
      end
  | Quantified a Once :: ts' =>
      match s with
      | [] => false
      | c :: s' => atom_matches a c && match_terms ts' false s'
      end
  | Quantified a OneOrMore :: ts' => repeat_plus a (match_terms ts' false) s
  end.

(** The search loop of [RegExp.prototype.exec]: try every start index. *)
Fixpoint search (ts : pattern) (at_start : bool) (s : jsstring) : bool :=
  match_terms ts at_start s
  || match s with
     | [] => false
     | _ :: s' => search ts false s'
     end.

(** [RegExp.prototype.test] of a regular expression without flags. *)
Definition test (ts : pattern) (s : jsstring) : bool := search ts true s.

End RegExp.

Import RegExp.

(** [[^\s@]] *)
Definition not_space_or_at : atom :=
  CharClass true [ClassEscape_s; ClassChar CH_AT].

(** [const emailRegex = /^[^\s@]+@[^\s@]+\.[^\s@]+$/;] *)
Definition emailRegex : pattern :=
  [ AssertStart;
    Quantified not_space_or_at OneOrMore;
    Quantified (PatternChar CH_AT) Once;
    Quantified not_space_or_at OneOrMore;
    Quantified (PatternChar CH_DOT) Once;
    Quantified not_space_or_at OneOrMore;
    AssertEnd ].

Definition isEmailValid (email : jsstring) : bool :=
  RegExp.test emailRegex email.

(** ** Data model *)

Inductive Polarity : Type := positive | negative.
Inductive Permissions : Type := public | private.

(** The keys of [I18nKey] the component uses ([FEEDBACK$...] in the source). *)
Inductive I18nKey : Type :=
| FEEDBACK_PASSWORD_COPIED_MESSAGE
| FEEDBACK_GO_TO_FEEDBACK
| FEEDBACK_PASSWORD
| FEEDBACK_COPY_LABEL
| FEEDBACK_FAILED_TO_SHARE
| FEEDBACK_MODAL_TITLE
| FEEDBACK_SHARE_LABEL
| FEEDBACK_CANCEL_LABEL
| FEEDBACK_MODAL_CONTENT
| FEEDBACK_EMAIL_LABEL
| FEEDBACK_EMAIL_PLACEHOLDER
| FEEDBACK_INVALID_EMAIL_FORMAT
| FEEDBACK_SHARING_SETTINGS_LABEL
| FEEDBACK_PRIVATE_LABEL
| FEEDBACK_PUBLIC_LABEL.

Definition VIEWER_PAGE : jsstring := lit "https://www.all-hands.dev/share".
Definition FEEDBACK_VERSION : jsstring := lit "1.0".

(** A thrown [Error] value; [error_toString] is [Error.prototype.toString],
    which the template literal [`${error}`] calls. *)
Record JsError : Type := mkError { err_name : jsstring; err_message : jsstring }.

Definition error_toString (e : JsError) : jsstring :=
  match err_name e, err_message e with
  | [], msg => msg
  | name, [] => name
  | name, msg => name ++ lit ": " ++ msg
  end.

Module Api.

(** Modelled from the spec: the type declarations of
    [#/api/open-hands.types] ([Feedback] and the response of
    [sendFeedback]) are not in the sources; the fields are those the
    component writes and reads. *)
Record Feedback (T : Type) : Type := mkFeedback {
  version : jsstring;
  feedback : Polarity;
  email : jsstring;
  permissions : Permissions;
  token : jsstring;
  trajectory : T
}.

Record FeedbackBodyResponse : Type := mkBody {
  message : jsstring;
  feedback_id : jsstring;
  password : jsstring
}.

Record FeedbackResponse : Type := mkResponse {
  statusCode : Z;
  body : FeedbackBodyResponse
}.

End Api.

Arguments Api.mkFeedback {T}.
Arguments Api.version {T}.
Arguments Api.feedback {T}.
Arguments Api.email {T}.
Arguments Api.permissions {T}.
Arguments Api.token {T}.
Arguments Api.trajectory {T}.

(** ** The browser's local storage

    [items] is the key/value content; [fault] is the exception every
    [setItem] raises when the storage is unavailable or full. *)
Record Storage : Type := mkStorage {
  items : gmap jsstring jsstring;
  fault : option JsError
}.

(** ** React elements handed to the notification service *)

Inductive Handler : Type :=
| OnPressToast (password : jsstring).

Inductive jsx : Type :=
| JsxText (s : jsstring)
| JsxElement (tag : string) (props : list (string * jsstring))
             (onClick : option Handler) (children : list jsx).

Fixpoint jsx_texts (j : jsx) : list jsstring :=
  match j with
  | JsxText s => [s]
  | JsxElement _ _ _ children => concat (map jsx_texts children)
  end.

Definition prop_values (name : string) (props : list (string * jsstring))
  : list jsstring :=
  map snd (List.filter (fun p => String.eqb (fst p) name) props).

Fixpoint jsx_hrefs (j : jsx) : list jsstring :=
  match j with
  | JsxText _ => []
  | JsxElement _ props _ children =>
      prop_values "href" props ++ concat (map jsx_hrefs children)
  end.

Record ToastOptions : Type := mkToastOptions {
  duration : option Z;
  icon : option jsstring;
  position : option jsstring
}.

(** ** Observable effects *)

Inductive Effect (T : Type) : Type :=
| CallOnSendFeedback
| CallGetToken
| StorageSetItem (key value : jsstring)
| StorageGetItem (key : jsstring)
| CallSendFeedback (token : jsstring) (feedback : Api.Feedback T)
| HotToast (content : jsx) (options : ToastOptions)
| ToastError (id msg : jsstring)
| ClipboardWriteText (text : jsstring).

Arguments CallOnSendFeedback {T}.
Arguments CallGetToken {T}.
Arguments StorageSetItem {T}.
Arguments StorageGetItem {T}.
Arguments CallSendFeedback {T}.
Arguments HotToast {T}.
Arguments ToastError {T}.
Arguments ClipboardWriteText {T}.

Definition is_toast {T} (e : Effect T) : bool :=
  match e with
  | HotToast _ _ | ToastError _ _ => true
  | _ => false
  end.

Definition is_network_call {T} (e : Effect T) : bool :=
  match e with
  | CallSendFeedback _ _ => true
  | _ => false
  end.

(** The four steps of a submission whose order the design fixes. *)
Definition is_submit_step {T} (e : Effect T) : bool :=
  match e with
  | CallOnSendFeedback | StorageSetItem _ _ | StorageGetItem _
  | CallSendFeedback _ _ => true
  | _ => false
  end.

(** ** Computations: storage state, an effect log, exceptions *)

Inductive Completion (A : Type) : Type :=
| Normal (a : A)
| Throw (e : JsError).

Arguments Normal {A}.
Arguments Throw {A}.

Definition M (T A : Type) : Type :=
  Storage -> Completion A * Storage * list (Effect T).

Definition ret {T A} (a : A) : M T A := fun s => (Normal a, s, []).

Definition bind {T A B} (c : M T A) (k : A -> M T B) : M T B :=
  fun s =>
    match c s with
    | (Normal a, s1, l1) =>
        match k a s1 with
        | (r, s2, l2) => (r, s2, l1 ++ l2)
        end
    | (Throw e, s1, l1) => (Throw e, s1, l1)
    end.

Definition emit {T} (e : Effect T) : M T unit := fun s => (Normal tt, s, [e]).

Definition throw {T A} (e : JsError) : M T A := fun s => (Throw e, s, []).

(** [try { body } catch (error) { handler error }] *)
Definition try_catch {T A} (body : M T A) (handler : JsError -> M T A) : M T A :=
  fun s =>
    match body s with
    | (Normal a, s1, l1) => (Normal a, s1, l1)
    | (Throw e, s1, l1) =>
        match handler e s1 with
        | (r, s2, l2) => (r, s2, l1 ++ l2)
        end
    end.

(** [await p]: the value of a settled promise, or its rejection rethrown. *)
Definition await {T A} (p : Completion A) : M T A :=
  match p with
  | Normal a => ret a
  | Throw e => throw e
  end.

Declare Scope js_scope.
Delimit Scope js_scope with js.
Notation "'let*' x ':=' c 'in' k" := (bind c (fun x => k))
  (at level 10, x name, c at level 100, k at level 200) : js_scope.
Notation "c ';;' k" := (bind c (fun _ => k))
  (at level 100, k at level 200, right associativity) : js_scope.
Local Open Scope js_scope.

Definition result {T A} (r : Completion A * Storage * list (Effect T)) : Completion A :=
  fst (fst r).
Definition final_storage {T A} (r : Completion A * Storage * list (Effect T)) : Storage :=
  snd (fst r).
Definition effects {T A} (r : Completion A * Storage * list (Effect T)) : list (Effect T) :=
  snd r.

(** [localStorage.setItem(key, value)] *)
Definition localStorage_setItem {T} (key value : jsstring) : M T unit :=
  emit (StorageSetItem key value) ;;
  fun s =>
    match fault s with
    | Some e => (Throw e, s, [])
    | None => (Normal tt, mkStorage (<[key := value]> (items s)) (fault s), [])
    end.

(** [localStorage.getItem(key)]; [None] is [null]. *)
Definition localStorage_getItem {T} (key : jsstring) : M T (option jsstring) :=
  emit (StorageGetItem key) ;;
  fun s => (Normal (items s !! key), s, []).

(** Truthiness of a [string | null] value. *)
Definition truthy (v : option jsstring) : bool :=
  match v with
  | Some (_ :: _) => true
  | _ => false
  end.

(** ** The component's collaborators

    The translation provider ([useTranslation]), the helpers of
    [#/services/auth] and [#/utils/utils] and the remote feedback service
    ([OpenHands.sendFeedback]) are imported by the source and taken as
    parameters.  [sendFeedback] gives the settled state of the promise the
    service returns: a response, or the rejection (network failure,
    unparsable reply). *)
Class Collaborators : Type := {
  Trajectory : Type;
  t : I18nKey -> jsstring;
  getToken : Storage -> jsstring;
  removeUnwantedKeys : Trajectory -> Trajectory;
  removeApiKey : Trajectory -> Trajectory;
  sendFeedback :
    jsstring -> Api.Feedback Trajectory -> Completion Api.FeedbackResponse
}.

(** The data props of [FeedbackModalProps]; the two callbacks are effects. *)
Record FeedbackModalProps : Type := mkProps {
  polarity : Polarity;
  isOpen : bool
}.

(** The two [React.useState] cells. *)
Record DialogState : Type := mkState {
  email : jsstring;
  permissions : Permissions
}.

(** [useState("")] and [useState("private")]. *)
Definition initialState : DialogState :=
  {| email := []; permissions := private |}.

Definition setEmail (newEmail : jsstring) (st : DialogState) : DialogState :=
  {| email := newEmail; permissions := permissions st |}.

Definition setPermissions (value : Permissions) (st : DialogState) : DialogState :=
  {| email := email st; permissions := value |}.

(** What happens to the dialog between two renderings. *)
Inductive DialogEvent : Type :=
| Mounted (storedEmail : option jsstring)
| EmailInput (newEmail : jsstring)
| PermissionsSelected (value : Permissions).

Definition handleEmailChange (newEmail : jsstring) (st : DialogState) : DialogState :=
  setEmail newEmail st.

Definition update (st : DialogState) (ev : DialogEvent) : DialogState :=
  match ev with
  | Mounted storedEmail =>
      match storedEmail with
      | Some v => if truthy storedEmail then setEmail v st else st
      | None => st
      end
  | EmailInput newEmail => handleEmailChange newEmail st
  | PermissionsSelected value => setPermissions value st
  end.

(** The value the email field shows after [evs], when it showed [e] before. *)
Fixpoint current_email (e : jsstring) (evs : list DialogEvent) : jsstring :=
  match evs with
  | [] => e
  | Mounted (Some (c :: v)) :: evs' => current_email (c :: v) evs'
  | Mounted _ :: evs' => current_email e evs'
  | EmailInput newEmail :: evs' => current_email newEmail evs'
  | PermissionsSelected _ :: evs' => current_email e evs'
  end.

(** The actions handed to [BaseModal]. *)
Inductive ActionHandler : Type :=
| HandleSendFeedback
| EmptyAction.

Record ModalAction : Type := mkAction {
  label : jsstring;
  className : jsstring;
  action : ActionHandler;
  isDisabled : option bool;
  closeAfterAction : bool
}.

Record View : Type := mkView {
  testID : jsstring;
  viewIsOpen : bool;
  title : jsstring;
  isDismissable : bool;
  actions : list ModalAction;
  content : jsstring;
  emailValue : jsstring;
  invalidEmailMessage : option jsstring;
  permissionsValue : Permissions
}.

Section Component.

Context {C : Collaborators}.

Abbreviation Eff := (Effect Trajectory).
Abbreviation Run A := (M Trajectory A).

(** The body of the [React.useEffect] that runs once after mounting. *)
Definition mountEffect : Run DialogEvent :=
  let* storedEmail := localStorage_getItem (lit "feedback-email") in
  ret (Mounted storedEmail).

Definition copiedToClipboardToast : Run unit :=
  emit (HotToast (JsxText (t FEEDBACK_PASSWORD_COPIED_MESSAGE))
          {| duration := None;
             icon := Some [55357; 56523];
             position := Some (lit "bottom-right") |}).

Definition onPressToast (password : jsstring) : Run unit :=
  emit (ClipboardWriteText password) ;;
  copiedToClipboardToast.

Definition run_handler (h : Handler) : Run unit :=
  match h with
  | OnPressToast password => onPressToast password
  end.

Definition shareFeedbackToast_content (message link password : jsstring) : jsx :=
  JsxElement "div" [("className", lit "flex flex-col gap-1")]%string None
    [ JsxElement "span" [] None [JsxText message];
      JsxElement "a"
        [("data-testid", lit "toast-share-url");
         ("className", lit "text-blue-500 underline");
         ("href", link);
         ("target", lit "_blank");
         ("rel", lit "noreferrer")]%string
        (Some (OnPressToast password))
        [JsxText (t FEEDBACK_GO_TO_FEEDBACK)];
      JsxElement "span" [("className", lit "cursor-pointer")]%string
        (Some (OnPressToast password))
        [ JsxText (t FEEDBACK_PASSWORD); JsxText (lit " "); JsxText password;
          JsxElement "span" [("className", lit "text-gray-500")]%string None
            [JsxText (lit "("); JsxText (t FEEDBACK_COPY_LABEL);
             JsxText (lit ")")] ] ].

Definition shareFeedbackToast (message link password : jsstring) : Run unit :=
  emit (HotToast (shareFeedbackToast_content message link password)
          {| duration := Some 5000%Z; icon := None; position := None |}).

(** [toast.error(id, msg)] of [#/utils/toast]. *)
Definition toast_error (id msg : jsstring) : Run unit :=
  emit (ToastError id msg).

Definition onSendFeedback : Run unit := emit CallOnSendFeedback.

Definition call_getToken : Run jsstring :=
  emit CallGetToken ;;
  fun s => (Normal (getToken s), s, []).

Definition OpenHands_sendFeedback
    (token : jsstring) (feedback : Api.Feedback Trajectory)
  : Run Api.FeedbackResponse :=
  emit (CallSendFeedback token feedback) ;;
  await (sendFeedback token feedback).

(** [`${VIEWER_PAGE}?share_id=${feedbackId}`] *)
Definition share_link (feedbackId : jsstring) : jsstring :=
  VIEWER_PAGE ++ lit "?share_id=" ++ feedbackId.

(** [`${t(I18nKey.FEEDBACK$FAILED_TO_SHARE)} ${detail}`] *)
Definition failed_to_share (detail : jsstring) : jsstring :=
  t FEEDBACK_FAILED_TO_SHARE ++ lit " " ++ detail.

(** The [try] block of [handleSendFeedback]. *)
Definition guarded_region
    (st : DialogState) (feedback : Api.Feedback Trajectory) : Run unit :=
  localStorage_setItem (lit "feedback-email") (email st) ;;
  let* token := localStorage_getItem (lit "token") in
  match token with
  | Some tok =>
      if truthy token then
        let* response := OpenHands_sendFeedback tok feedback in
        if (Api.statusCode response =? 200)%Z then
          let message := Api.message (Api.body response) in
          let feedbackId := Api.feedback_id (Api.body response) in
          let password := Api.password (Api.body response) in
          let link := share_link feedbackId in
          shareFeedbackToast message link password
        else
          toast_error (lit "share-error")
            (failed_to_share (Api.message (Api.body response)))
      else ret tt
  | None => ret tt
  end.

(** The [catch (error)] block of [handleSendFeedback]. *)
Definition catch_block (error : JsError) : Run unit :=
  toast_error (lit "share-error") (failed_to_share (error_toString error)).

(** The object literal [feedback] of [handleSendFeedback]; [tok] is the
    value of the call [getToken()]. *)
Definition make_feedback
    (props : FeedbackModalProps) (events : Trajectory) (st : DialogState)
    (tok : jsstring) : Api.Feedback Trajectory :=
  {| Api.version := FEEDBACK_VERSION;
     Api.feedback := polarity props;
     Api.email := email st;
     Api.permissions := permissions st;
     Api.token := tok;
     Api.trajectory := removeApiKey (removeUnwantedKeys events) |}.

Definition handleSendFeedback
    (props : FeedbackModalProps) (events : Trajectory) (st : DialogState)
  : Run unit :=
  onSendFeedback ;;
  let* tok := call_getToken in
  let feedback := make_feedback props events st tok in
  try_catch (guarded_region st feedback) catch_block.

(** The storage after a successful [setItem("feedback-email", email)]. *)
Definition email_stored (st : DialogState) (s : Storage) : Storage :=
  mkStorage (<[lit "feedback-email" := email st]> (items s)) (fault s).

(** The ordered steps of a submission. *)
Definition submit_steps
    (st : DialogState) (tok : jsstring) (feedback : Api.Feedback Trajectory)
  : list Eff :=
  [ CallOnSendFeedback;
    StorageSetItem (lit "feedback-email") (email st);
    StorageGetItem (lit "token");
    CallSendFeedback tok feedback ].

(** How many of the ordered steps a submission reaches from storage [s]. *)
Definition steps_reached (s : Storage) : nat :=
  match fault s with
  | Some _ => 2%nat
  | None => if truthy (items s !! lit "token") then 4%nat else 3%nat
  end.

(** The props the component passes to [BaseModal] and its children. *)
Definition render (props : FeedbackModalProps) (st : DialogState) : View :=
  {| testID := lit "feedback-modal";
     viewIsOpen := isOpen props;
     title := t FEEDBACK_MODAL_TITLE;
     isDismissable := false;
     actions :=
       [ {| label := t FEEDBACK_SHARE_LABEL;
            className := lit "bg-primary rounded-lg";
            action := HandleSendFeedback;
            isDisabled := Some (negb (isEmailValid (email st)));
            closeAfterAction := true |};
         {| label := t FEEDBACK_CANCEL_LABEL;
            className := lit "bg-neutral-500 rounded-lg";
            action := EmptyAction;
            isDisabled := None;
            closeAfterAction := true |} ];
     content := t FEEDBACK_MODAL_CONTENT;
     emailValue := email st;
     invalidEmailMessage :=
       if negb (isEmailValid (email st))
       then Some (t FEEDBACK_INVALID_EMAIL_FORMAT) else None;
     permissionsValue := permissions st |}.

(** The Share action of a view: the one bound to [handleSendFeedback]. *)
Definition share_action (v : View) : option ModalAction :=
  head (List.filter (fun a => match action a with
                         | HandleSendFeedback => true
                         | EmptyAction => false
                         end) (actions v)).

End Component.

(** ** The shape of a valid email, in words

    [non_space] and [non_space_non_at] are the character sets [[^\s]] and
    [[^\s@]]. *)

Definition non_space (c : code_unit) : Prop := isWhiteSpace c = false.

Definition non_space_non_at (c : code_unit) : Prop :=
  isWhiteSpace c = false /\ c <> CH_AT.

(** The pattern as the design text words it: the last segment excludes
    white space only. *)
Definition spec_email_pattern (s : jsstring) : Prop :=
  exists l d tl : jsstring,
    s = l ++ CH_AT :: d ++ CH_DOT :: tl
    /\ l <> [] /\ d <> [] /\ tl <> []
    /\ Forall non_space_non_at l
    /\ Forall non_space_non_at d
    /\ Forall non_space tl.

(** The pattern with all three segments free of white space and of [@]. *)
Definition email_shape (s : jsstring) : Prop :=
  exists l d tl : jsstring,
    s = l ++ CH_AT :: d ++ CH_DOT :: tl
    /\ l <> [] /\ d <> [] /\ tl <> []
    /\ Forall non_space_non_at l
    /\ Forall non_space_non_at d
    /\ Forall non_space_non_at tl.

(** ** Concrete collaborators and storages, for running the model *)

Module Demo.

Definition translate (k : I18nKey) : jsstring :=
  match k with
  | FEEDBACK_PASSWORD_COPIED_MESSAGE => lit "Password copied to clipboard."
  | FEEDBACK_GO_TO_FEEDBACK => lit "Go to shared feedback"
  | FEEDBACK_PASSWORD => lit "Password:"
  | FEEDBACK_COPY_LABEL => lit "copy"
  | FEEDBACK_FAILED_TO_SHARE => lit "Failed to share:"
  | FEEDBACK_MODAL_TITLE => lit "Share feedback"
  | FEEDBACK_SHARE_LABEL => lit "Share"
  | FEEDBACK_CANCEL_LABEL => lit "Cancel"
  | FEEDBACK_MODAL_CONTENT => lit "Your feedback helps."
  | FEEDBACK_EMAIL_LABEL => lit "Your email"
  | FEEDBACK_EMAIL_PLACEHOLDER => lit "Please enter your email"
  | FEEDBACK_INVALID_EMAIL_FORMAT => lit "Invalid email format"
  | FEEDBACK_SHARING_SETTINGS_LABEL => lit "Sharing settings"
  | FEEDBACK_PRIVATE_LABEL => lit "Private"
  | FEEDBACK_PUBLIC_LABEL => lit "Public"
  end.

(** Collaborators whose feedback service settles every call with [reply]. *)
Definition services (reply : Completion Api.FeedbackResponse) : Collaborators :=
  {| Trajectory := list jsstring;
     t := translate;
     getToken := fun s => default [] (items s !! lit "token");
     removeUnwantedKeys := fun evs => evs;
     removeApiKey := fun evs => evs;
     sendFeedback := fun _ _ => reply |}.

Definition props : FeedbackModalProps :=
  {| polarity := positive; isOpen := true |}.

Definition state : DialogState :=
  {| email := lit "user@example.com"; permissions := private |}.

Definition events : list jsstring := [lit "{}"].

Definition signed_in : Storage :=
  mkStorage {[ lit "token" := lit "secret" ]} None.

Definition signed_out : Storage := mkStorage ∅ None.

Definition quota_error : JsError :=
  mkError (lit "QuotaExceededError") (lit "The quota has been exceeded.").

Definition signed_out_full : Storage := mkStorage ∅ (Some quota_error).

Definition signed_in_full : Storage :=
  mkStorage {[ lit "token" := lit "secret" ]} (Some quota_error).

Definition ok_reply : Completion Api.FeedbackResponse :=
  Normal {| Api.statusCode := 200;
            Api.body := {| Api.message := lit "ok";
                           Api.feedback_id := lit "abc123";
                           Api.password := lit "p@ss" |} |}.

Definition error_reply : Completion Api.FeedbackResponse :=
  Normal {| Api.statusCode := 500;
            Api.body := {| Api.message := lit "server error";
                           Api.feedback_id := [];
                           Api.password := [] |} |}.

Definition network_failure : Completion Api.FeedbackResponse :=
  Throw (mkError (lit "TypeError") (lit "Failed to fetch")).

End Demo.

(** ** Mounting, and the click handlers of a toast *)

(** The [onClick] handlers of an element tree, in document order. *)
Fixpoint jsx_handlers (j : jsx) : list Handler :=
  match j with
  | JsxText _ => []
  | JsxElement _ _ onClick children =>
      match onClick with
      | Some h => [h]
      | None => []
      end ++ concat (map jsx_handlers children)
  end.

(** The state of a dialog mounted on storage [s]: the initial state, then
    the [React.useEffect] of the component. *)
Definition mount {C : Collaborators} (s : Storage) : DialogState :=
  match result (mountEffect s) with
  | Normal ev => update initialState ev
  | Throw _ => initialState
  end.

(** * Properties *)

(** ** The validity predicate *)

Example isEmailValid_ex1 : isEmailValid (lit "user@example.com") = true.
Proof. vm_compute. reflexivity. Qed.

Example isEmailValid_ex2 : isEmailValid (lit "a b@c.d") = false.
Proof. vm_compute. reflexivity. Qed.

Example isEmailValid_ex3 : isEmailValid (lit "a@b.c.d") = true.
Proof. vm_compute. reflexivity. Qed.

Example handleSendFeedback_ex1 :
  handleSendFeedback (C := Demo.services Demo.ok_reply)
    Demo.props Demo.events Demo.state Demo.signed_out
  = (Normal tt, email_stored Demo.state Demo.signed_out,
     [ CallOnSendFeedback; CallGetToken;
       StorageSetItem (lit "feedback-email") (lit "user@example.com");
       StorageGetItem (lit "token") ]).
Proof. vm_compute. reflexivity. Qed.

Lemma not_space_or_at_matches (c : code_unit) :
  atom_matches not_space_or_at c = true <-> non_space_non_at c.
Proof.
  unfold non_space_non_at, not_space_or_at, CH_AT.
  cbn [atom_matches existsb class_atom_matches xorb].
  rewrite orb_false_r.
  destruct (isWhiteSpace c); cbn [orb].
  - split; [discriminate | intros [? _]; discriminate].
  - destruct (N.eqb_spec c 64); split; try tauto; discriminate.
Qed.

Lemma PatternChar_matches (d c : code_unit) :
  atom_matches (PatternChar d) c = true <-> c = d.
Proof. simpl. apply N.eqb_eq. Qed.

(** [a+] followed by [k] succeeds exactly when the input splits into a
    non-empty run of characters of [a] and a rest that [k] accepts. *)
Lemma repeat_plus_spec (a : atom) (k : jsstring -> bool) (s : jsstring) :
  repeat_plus a k s = true <->
  exists pre post : jsstring,
    s = pre ++ post /\ pre <> []
    /\ Forall (fun c => atom_matches a c = true) pre
    /\ k post = true.
Proof.
  induction s as [|c s IH]; simpl.
  - split; [discriminate|].
    intros (pre & post & Hs & Hne & _).
    destruct pre; [congruence | discriminate].
  - rewrite andb_true_iff, orb_true_iff, IH. split.
    + intros [Hc [(pre & post & -> & _ & Hall & Hk) | Hk]].
      * exists (c :: pre), post. repeat split; auto; discriminate.
      * exists [c], s. repeat split; auto; discriminate.
    + intros (pre & post & Hs & Hne & Hall & Hk).
      destruct pre as [|c' pre]; [congruence|].
      simpl in Hs. injection Hs as -> ->.
      inversion Hall as [|? ? Hc Hall']; subst.
      split; [exact Hc|].
      destruct pre as [|c'' pre].
      * right. exact Hk.
      * left. exists (c'' :: pre), post. repeat split; auto; discriminate.
Qed.

(** A pattern that begins with [^] matches at the start of the input only. *)
Lemma search_anchored (ts : pattern) (s : jsstring) :
  search (AssertStart :: ts) false s = false.
Proof. induction s as [|c s IH]; simpl; auto. Qed.

Lemma test_anchored (ts : pattern) (s : jsstring) :
  RegExp.test (AssertStart :: ts) s = match_terms ts true s.
Proof.
  unfold RegExp.test. destruct s as [|c s]; simpl.
  - apply orb_false_r.
  - rewrite search_anchored. apply orb_false_r.
Qed.

Lemma Forall_class (l : jsstring) :
  Forall (fun c => atom_matches not_space_or_at c = true) l
  <-> Forall non_space_non_at l.
Proof. apply Forall_iff. intros c. apply not_space_or_at_matches. Qed.

(** The regular expression accepts exactly the strings of [email_shape]. *)
Lemma isEmailValid_shape (s : jsstring) :
  isEmailValid s = true <-> email_shape s.
Proof.
  unfold isEmailValid, emailRegex, email_shape.
  rewrite test_anchored. cbn [match_terms].
  rewrite repeat_plus_spec. split.
  - intros (l & post & -> & Hl & Hal & Hk).
    destruct post as [|c1 post]; [discriminate|].
    apply andb_true_iff in Hk as [Hat Hk].
    apply PatternChar_matches in Hat as ->.
    apply repeat_plus_spec in Hk as (d & post' & -> & Hd & Had & Hk).
    destruct post' as [|c2 post']; [discriminate|].
    apply andb_true_iff in Hk as [Hdot Hk].
    apply PatternChar_matches in Hdot as ->.
    apply repeat_plus_spec in Hk as (tl & rest & -> & Ht & Hat & Hk).
    destruct rest; [|discriminate].
    exists l, d, tl. rewrite app_nil_r.
    repeat split; auto; now apply Forall_class.
  - intros (l & d & tl & -> & Hl & Hd & Ht & Hal & Had & Hat).
    exists l, (CH_AT :: d ++ CH_DOT :: tl).
    repeat split; auto; [now apply Forall_class|].
    apply andb_true_iff. split; [now apply PatternChar_matches|].
    apply repeat_plus_spec. exists d, (CH_DOT :: tl).
    repeat split; auto; [now apply Forall_class|].
    apply andb_true_iff. split; [now apply PatternChar_matches|].
    apply repeat_plus_spec. exists tl, [].
    rewrite app_nil_r. repeat split; auto. now apply Forall_class.
Qed.

Lemma non_space_non_at_weaken (l : jsstring) :
  Forall non_space_non_at l -> Forall non_space l.
Proof. induction 1 as [|c l [Hc _] _ IH]; constructor; auto. Qed.

Lemma email_shape_spec_pattern (s : jsstring) :
  email_shape s -> spec_email_pattern s.
Proof.
  intros (l & d & tl & Hs & Hl & Hd & Ht & Hal & Had & Hat).
  exists l, d, tl. repeat split; auto using non_space_non_at_weaken.
Qed.

Lemma segment_without_at (l : jsstring) :
  Forall non_space_non_at l -> ~ In CH_AT l.
Proof.
  induction 1 as [|c l [_ Hc] _ IH]; simpl; [tauto|].
  intros [Heq | Hin]; [congruence | tauto].
Qed.

(** A character that occurs once in a string splits it in one way only. *)
Lemma split_at_unique (a : code_unit) (l r pre post : jsstring) :
  ~ In a l -> ~ In a r ->
  l ++ a :: r = pre ++ a :: post ->
  pre = l /\ post = r.
Proof.
  revert pre. induction l as [|x l IH]; intros pre Hl Hr Heq.
  - destruct pre as [|y pre]; simpl in Heq.
    + injection Heq as <-. auto.
    + injection Heq as <- ->. exfalso. apply Hr.
      apply in_or_app. right. left. reflexivity.
  - destruct pre as [|y pre]; simpl in Heq.
    + injection Heq as -> _. exfalso. apply Hl. left. reflexivity.
    + injection Heq as <- Heq.
      destruct (IH pre) as [-> ->]; auto.
      intros Hin. apply Hl. right. exact Hin.
Qed.

(** A valid email has an [@], and a [.] after every [@] it has. *)
Lemma valid_has_at_then_dot (s : jsstring) :
  isEmailValid s = true ->
  In CH_AT s /\
  forall pre post : jsstring, s = pre ++ CH_AT :: post -> In CH_DOT post.
Proof.
  intros Hv. apply isEmailValid_shape in Hv.
  destruct Hv as (l & d & tl & -> & _ & _ & _ & Hal & Had & Hat).
  split.
  - apply in_or_app. right. left. reflexivity.
  - intros pre post Heq.
    apply split_at_unique in Heq as [_ ->].
    + apply in_or_app. right. left. reflexivity.
    + now apply segment_without_at.
    + intros Hin. apply in_app_or in Hin as [Hin | [Heq' | Hin]].
      * revert Hin. now apply segment_without_at.
      * discriminate Heq'.
      * revert Hin. now apply segment_without_at.
Qed.

(** C1 (as stated, refuted): the string [a@b.c@d] has the shape the design
    text gives, with [c@d] as a last segment free of white space, and the
    predicate rejects it: the equivalence with that shape fails. *)
Lemma C1_last_segment_counterexample :
  ~ (isEmailValid (lit "a@b.c@d") = true <-> spec_email_pattern (lit "a@b.c@d")).
Proof.
  intros [_ H].
  assert (Hv : isEmailValid (lit "a@b.c@d") = true).
  { apply H. exists (lit "a"), (lit "b"), (lit "c@d").
    split; [reflexivity|].
    repeat split; try discriminate;
      repeat constructor; try reflexivity; discriminate. }
  vm_compute in Hv. discriminate Hv.
Qed.

(** C1 (amended): for every string [s], [isEmailValid s] is true if and only
    if [s] is one or more characters other than white space and [@], a
    literal [@], one or more such characters, a literal [.], and one or more
    such characters again: the last segment excludes [@] as well as white
    space. *)
Theorem C1_isEmailValid_iff_email_shape (s : jsstring) :
  isEmailValid s = true <-> email_shape s.
Proof. apply isEmailValid_shape. Qed.

(** C7: a string with no [@], or with an [@] that no [.] follows, is not a
    valid email; [a@b] and [@b.c] are invalid and [a@b.c] is valid. *)
Theorem C7_isEmailValid_needs_at_and_dot :
  (forall s : jsstring,
      (~ In CH_AT s \/
       exists pre post : jsstring, s = pre ++ CH_AT :: post /\ ~ In CH_DOT post) ->
      isEmailValid s = false)
  /\ isEmailValid (lit "a@b") = false
  /\ isEmailValid (lit "@b.c") = false
  /\ isEmailValid (lit "a@b.c") = true.
Proof.
  split; [|repeat split; vm_compute; reflexivity].
  intros s H. apply not_true_is_false. intros Hv.
  apply valid_has_at_then_dot in Hv as [Hat Hdot].
  destruct H as [Hno | (pre & post & Hs & Hno)].
  - exact (Hno Hat).
  - exact (Hno (Hdot pre post Hs)).
Qed.

Lemma C7_witness :
  (~ In CH_AT (lit "user.example.com")
   \/ exists pre post : jsstring,
       lit "user.example.com" = pre ++ CH_AT :: post /\ ~ In CH_DOT post)
  /\ isEmailValid (lit "user.example.com") = false
  /\ (~ In CH_AT (lit "a@b")
      \/ exists pre post : jsstring,
          lit "a@b" = pre ++ CH_AT :: post /\ ~ In CH_DOT post)
  /\ isEmailValid (lit "a@b") = false.
Proof.
  assert (H1 : ~ In CH_AT (lit "user.example.com")).
  { vm_compute. intuition discriminate. }
  assert (H2 : exists pre post : jsstring,
             lit "a@b" = pre ++ CH_AT :: post /\ ~ In CH_DOT post).
  { exists (lit "a"), (lit "b"). split; [reflexivity|].
    vm_compute. intuition discriminate. }
  split; [left; exact H1|].
  split; [apply (proj1 C7_isEmailValid_needs_at_and_dot); left; exact H1|].
  split; [right; exact H2|].
  apply (proj1 C7_isEmailValid_needs_at_and_dot); right; exact H2.
Defined.

(** ** The dialog state and the rendering contract *)

Lemma update_email (st : DialogState) (ev : DialogEvent) :
  email (update st ev) = current_email (email st) [ev].
Proof.
  destruct ev as [[[|c v]|] | newEmail | value]; reflexivity.
Qed.

Lemma fold_update_email (evs : list DialogEvent) (st : DialogState) :
  email (fold_left update evs st) = current_email (email st) evs.
Proof.
  revert st. induction evs as [|ev evs IH]; intros st; [reflexivity|].
  cbn [fold_left]. rewrite IH, update_email.
  destruct ev as [[[|c v]|] | newEmail | value]; reflexivity.
Qed.

(** ** The submission handler *)

Section Submission.

Context {C : Collaborators}.
Variables (props : FeedbackModalProps) (events : Trajectory) (st : DialogState).

Lemma keys_distinct : lit "feedback-email" <> lit "token".
Proof. discriminate. Qed.

Lemma token_after_store (s : Storage) :
  items (email_stored st s) !! lit "token" = items s !! lit "token".
Proof.
  unfold email_stored. cbn [items].
  apply lookup_insert_ne. exact keys_distinct.
Qed.

(** The [try] block, case by case. *)
Lemma guarded_region_eq (fb : Api.Feedback Trajectory) (s : Storage) :
  guarded_region st fb s =
  let set := StorageSetItem (lit "feedback-email") (email st) in
  let get := StorageGetItem (lit "token") in
  match fault s with
  | Some e => (Throw e, s, [set])
  | None =>
      match items s !! lit "token" with
      | Some (c :: tok') =>
          let tok := c :: tok' in
          match sendFeedback tok fb with
          | Normal response =>
              if (Api.statusCode response =? 200)%Z then
                (Normal tt, email_stored st s,
                 [ set; get; CallSendFeedback tok fb;
                   HotToast
                     (shareFeedbackToast_content
                        (Api.message (Api.body response))
                        (share_link (Api.feedback_id (Api.body response)))
                        (Api.password (Api.body response)))
                     {| duration := Some 5000%Z; icon := None;
                        position := None |} ])
              else
                (Normal tt, email_stored st s,
                 [ set; get; CallSendFeedback tok fb;
                   ToastError (lit "share-error")
                     (failed_to_share (Api.message (Api.body response))) ])
          | Throw e =>
              (Throw e, email_stored st s, [set; get; CallSendFeedback tok fb])
          end
      | _ => (Normal tt, email_stored st s, [set; get])
      end
  end.
Proof.
  unfold guarded_region, localStorage_setItem, localStorage_getItem,
    OpenHands_sendFeedback, shareFeedbackToast, toast_error, await,
    bind, emit, ret, throw.
  destruct s as [its [e|]]; cbn [fault items]; [reflexivity|].
  unfold email_stored. cbn [items fault app].
  rewrite lookup_insert_ne by exact keys_distinct.
  destruct (its !! lit "token") as [[|c tok']|]; try reflexivity.
  cbn [truthy].
  destruct (sendFeedback (c :: tok') fb) as [response|e]; [|reflexivity].
  destruct (Api.statusCode response =? 200)%Z; reflexivity.
Qed.

(** The handler in terms of its [try] block: the two calls before it,
    and the [catch] block after an exception. *)
Lemma handleSendFeedback_eq (s : Storage) :
  handleSendFeedback props events st s =
  match guarded_region st (make_feedback props events st (getToken s)) s with
  | (Normal a, s1, l1) =>
      (Normal a, s1, CallOnSendFeedback :: CallGetToken :: l1)
  | (Throw e, s1, l1) =>
      (Normal tt, s1,
       CallOnSendFeedback :: CallGetToken :: l1
         ++ [ToastError (lit "share-error")
               (failed_to_share (error_toString e))])
  end.
Proof.
  unfold handleSendFeedback, onSendFeedback, call_getToken, try_catch,
    catch_block, toast_error, bind, emit.
  destruct (guarded_region st (make_feedback props events st (getToken s)) s)
    as [[[a|e] s1] l1]; reflexivity.
Qed.

Lemma handleSendFeedback_never_throws (s : Storage) :
  result (handleSendFeedback props events st s) = Normal tt.
Proof.
  rewrite handleSendFeedback_eq.
  destruct (guarded_region st (make_feedback props events st (getToken s)) s)
    as [[[[]|e] s1] l1]; reflexivity.
Qed.

(** The [try] block throws exactly when the storage refuses the write or
    the feedback service call fails. *)
Lemma guarded_region_throws_iff
    (fb : Api.Feedback Trajectory) (s : Storage) (e : JsError) :
  result (guarded_region st fb s) = Throw e <->
  fault s = Some e
  \/ (fault s = None /\
      exists tok : jsstring,
        items s !! lit "token" = Some tok /\ tok <> []
        /\ sendFeedback tok fb = Throw e).
Proof.
  rewrite guarded_region_eq. cbv zeta.
  destruct (fault s) as [e'|]; cbn [result fst].
  - split.
    + intros [= ->]. left. reflexivity.
    + intros [[= ->] | [[=] _]]. reflexivity.
  - destruct (items s !! lit "token") as [[|c tok']|] eqn:Htok;
      cbn [result fst].
    + split; [discriminate|].
      intros [[=] | [_ (tok & [= <-] & Hne & _)]]. congruence.
    + destruct (sendFeedback (c :: tok') fb) as [response|e'] eqn:Hsend.
      * destruct (Api.statusCode response =? 200)%Z; cbn [result fst];
          (split; [discriminate|]);
          intros [[=] | [_ (tok & [= <-] & _ & Hthrow)]]; congruence.
      * cbn [result fst]. split.
        -- intros [= ->]. right. split; [reflexivity|].
           exists (c :: tok'). repeat split; auto; discriminate.
        -- intros [[=] | [_ (tok & [= <-] & _ & Hthrow)]]. congruence.
    + split; [discriminate|].
      intros [[=] | [_ (tok & [=] & _)]].
Qed.

(** C2 (amended): when no credential is stored under ["token"], the
    feedback service is never invoked; and no toast is shown, unless the
    write of the email to local storage throws [e], in which case the one
    toast shown is the error toast whose text is the localized "failed to
    share" prefix, a space, and [e] as a string. *)
Theorem C2_no_token_no_network_call (s : Storage) :
  items s !! lit "token" = None ->
  existsb is_network_call (effects (handleSendFeedback props events st s))
  = false
  /\ List.filter is_toast (effects (handleSendFeedback props events st s))
     = match fault s with
       | Some e =>
           [ ToastError (lit "share-error")
               (t FEEDBACK_FAILED_TO_SHARE ++ lit " " ++ error_toString e) ]
       | None => []
       end.
Proof.
  intros Htok. rewrite handleSendFeedback_eq, guarded_region_eq. cbv zeta.
  rewrite Htok. destruct (fault s); split; reflexivity.
Qed.

(** C3: the effects of a submission that are steps of the design occur in
    the order: notification of the caller, write of the email under
    ["feedback-email"], read of the credential under ["token"], call of
    the feedback service; a submission performs a prefix of this
    sequence, and so the service is called only after the three others. *)
Theorem C3_submit_steps_in_order (s : Storage) :
  List.filter is_submit_step (effects (handleSendFeedback props events st s))
  = firstn (steps_reached s)
      (submit_steps st (default [] (items s !! lit "token"))
         (make_feedback props events st (getToken s))).
Proof.
  rewrite handleSendFeedback_eq, guarded_region_eq. cbv zeta.
  unfold steps_reached, submit_steps.
  destruct (fault s); [reflexivity|].
  destruct (items s !! lit "token") as [[|c tok']|]; try reflexivity.
  cbn [truthy default].
  destruct (sendFeedback _ _) as [response|e]; [|reflexivity].
  destruct (Api.statusCode response =? 200)%Z; reflexivity.
Qed.

(** C4: after a response with status 200 and body
    [{message, feedback_id, password}], the handler shows one toast whose
    content holds the message, a link to the viewer page with the feedback
    id as [share_id] query parameter, and the password; for the id
    [abc123] the link is
    [https://www.all-hands.dev/share?share_id=abc123]. *)
Theorem C4_success_toast
    (s : Storage) (tok : jsstring) (response : Api.FeedbackResponse) :
  fault s = None ->
  items s !! lit "token" = Some tok ->
  tok <> [] ->
  sendFeedback tok (make_feedback props events st (getToken s))
  = Normal response ->
  Api.statusCode response = 200%Z ->
  let message := Api.message (Api.body response) in
  let password := Api.password (Api.body response) in
  let link :=
    lit "https://www.all-hands.dev/share?share_id="
      ++ Api.feedback_id (Api.body response) in
  let content := shareFeedbackToast_content message link password in
  effects (handleSendFeedback props events st s)
  = [ CallOnSendFeedback; CallGetToken;
      StorageSetItem (lit "feedback-email") (email st);
      StorageGetItem (lit "token");
      CallSendFeedback tok (make_feedback props events st (getToken s));
      HotToast content
        {| duration := Some 5000%Z; icon := None; position := None |} ]
  /\ In message (jsx_texts content)
  /\ In link (jsx_hrefs content)
  /\ In password (jsx_texts content)
  /\ share_link (lit "abc123")
     = lit "https://www.all-hands.dev/share?share_id=abc123".
Proof.
  intros Hf Htok Hne Hsend Hstatus message password link content.
  split; [|repeat split].
  - rewrite handleSendFeedback_eq, guarded_region_eq. cbv zeta.
    rewrite Hf, Htok. destruct tok as [|c tok']; [congruence|].
    rewrite Hsend, Hstatus. reflexivity.
  - cbn. tauto.
  - cbn. tauto.
  - cbn. tauto.
Qed.

(** C5: after a response with a status other than 200, the handler shows
    the error toast whose text is the localized "failed to share" prefix,
    a space, and the message of the response body; it shows no
    share-link toast. *)
Theorem C5_error_status_toast
    (s : Storage) (tok : jsstring) (response : Api.FeedbackResponse) :
  fault s = None ->
  items s !! lit "token" = Some tok ->
  tok <> [] ->
  sendFeedback tok (make_feedback props events st (getToken s))
  = Normal response ->
  Api.statusCode response <> 200%Z ->
  effects (handleSendFeedback props events st s)
  = [ CallOnSendFeedback; CallGetToken;
      StorageSetItem (lit "feedback-email") (email st);
      StorageGetItem (lit "token");
      CallSendFeedback tok (make_feedback props events st (getToken s));
      ToastError (lit "share-error")
        (t FEEDBACK_FAILED_TO_SHARE ++ lit " "
           ++ Api.message (Api.body response)) ]
  /\ forall (content : jsx) (options : ToastOptions),
       ~ In (HotToast content options)
           (effects (handleSendFeedback props events st s)).
Proof.
  intros Hf Htok Hne Hsend Hstatus.
  assert (Heff : effects (handleSendFeedback props events st s)
    = [ CallOnSendFeedback; CallGetToken;
        StorageSetItem (lit "feedback-email") (email st);
        StorageGetItem (lit "token");
        CallSendFeedback tok (make_feedback props events st (getToken s));
        ToastError (lit "share-error")
          (t FEEDBACK_FAILED_TO_SHARE ++ lit " "
             ++ Api.message (Api.body response)) ]).
  { rewrite handleSendFeedback_eq, guarded_region_eq. cbv zeta.
    rewrite Hf, Htok. destruct tok as [|c tok']; [congruence|].
    rewrite Hsend. apply Z.eqb_neq in Hstatus. rewrite Hstatus.
    reflexivity. }
  split; [exact Heff|].
  intros content options. rewrite Heff. cbn [In].
  intros H. repeat (destruct H as [H|H]; [discriminate H|]). exact H.
Qed.

(** C6: when a step of the [try] block throws [e], the handler catches
    it: it completes normally, and its last effect, and only toast, is
    the error toast whose text is the localized "failed to share" prefix,
    a space, and the error as a string. *)
Theorem C6_exception_caught (s : Storage) (e : JsError) :
  result (guarded_region st (make_feedback props events st (getToken s)) s)
  = Throw e ->
  result (handleSendFeedback props events st s) = Normal tt
  /\ exists pre : list (Effect Trajectory),
       effects (handleSendFeedback props events st s)
       = pre ++ [ToastError (lit "share-error")
                   (t FEEDBACK_FAILED_TO_SHARE ++ lit " "
                      ++ error_toString e)]
       /\ existsb is_toast pre = false.
Proof.
  intros Hthrow. split; [apply handleSendFeedback_never_throws|].
  rewrite handleSendFeedback_eq.
  revert Hthrow. rewrite guarded_region_eq. cbv zeta.
  destruct (fault s) as [e'|]; cbn [result fst].
  - intros [= ->].
    exists [ CallOnSendFeedback; CallGetToken;
             StorageSetItem (lit "feedback-email") (email st) ].
    split; reflexivity.
  - destruct (items s !! lit "token") as [[|c tok']|];
      cbn [result fst]; try discriminate.
    destruct (sendFeedback _ _) as [response|e'].
    + destruct (Api.statusCode response =? 200)%Z; discriminate.
    + cbn [result fst]. intros [= ->].
      exists [ CallOnSendFeedback; CallGetToken;
               StorageSetItem (lit "feedback-email") (email st);
               StorageGetItem (lit "token");
               CallSendFeedback (c :: tok')
                 (make_feedback props events st (getToken s)) ].
      split; reflexivity.
Qed.

(** C8: after any sequence of mounting, email edits and permission
    selections, the Share action of the rendered dialog is disabled
    exactly when [isEmailValid] is false of the current email, the
    value of the last edit. *)
Theorem C8_share_disabled_iff_invalid (evs : list DialogEvent) :
  exists a : ModalAction,
    share_action (render props (fold_left update evs initialState)) = Some a
    /\ action a = HandleSendFeedback
    /\ isDisabled a
       = Some (negb (isEmailValid
                       (email (fold_left update evs initialState))))
    /\ email (fold_left update evs initialState) = current_email [] evs.
Proof.
  eexists. split; [reflexivity|]. cbn [action isDisabled].
  repeat split. apply fold_update_email.
Qed.


(** C10: when the write of the email to local storage throws [e], the
    handler makes no call of the feedback service and shows the "failed
    to share" error toast with [e] as a string, as for a failed call. *)
Theorem C10_storage_write_failure (s : Storage) (e : JsError) :
  fault s = Some e ->
  effects (handleSendFeedback props events st s)
  = [ CallOnSendFeedback; CallGetToken;
      StorageSetItem (lit "feedback-email") (email st);
      ToastError (lit "share-error")
        (t FEEDBACK_FAILED_TO_SHARE ++ lit " " ++ error_toString e) ]
  /\ existsb is_network_call
       (effects (handleSendFeedback props events st s)) = false
  /\ result (handleSendFeedback props events st s) = Normal tt
  /\ final_storage (handleSendFeedback props events st s) = s.
Proof.
  intros Hf. rewrite handleSendFeedback_eq, guarded_region_eq. cbv zeta.
  rewrite Hf. repeat split.
Qed.

End Submission.

(** ** The properties on concrete runs *)

Example handleSendFeedback_ex_success :
  handleSendFeedback (C := Demo.services Demo.ok_reply)
    Demo.props Demo.events Demo.state Demo.signed_in
  = (Normal tt, email_stored Demo.state Demo.signed_in,
     [ CallOnSendFeedback; CallGetToken;
       StorageSetItem (lit "feedback-email") (lit "user@example.com");
       StorageGetItem (lit "token");
       CallSendFeedback (lit "secret")
         (Api.mkFeedback (lit "1.0") positive (lit "user@example.com")
            private (lit "secret") [lit "{}"]);
       HotToast
         (shareFeedbackToast_content (C := Demo.services Demo.ok_reply)
            (lit "ok")
            (lit "https://www.all-hands.dev/share?share_id=abc123")
            (lit "p@ss"))
         {| duration := Some 5000%Z; icon := None; position := None |} ]).
Proof. vm_compute. reflexivity. Qed.

(** C2 (as stated, refuted): with no credential stored and a storage that
    refuses writes, a toast is shown. *)
Lemma C2_storage_failure_counterexample :
  ~ (items Demo.signed_out_full !! lit "token" = None ->
     existsb is_network_call
       (effects (handleSendFeedback (C := Demo.services Demo.ok_reply)
                   Demo.props Demo.events Demo.state Demo.signed_out_full))
     = false
     /\ existsb is_toast
          (effects (handleSendFeedback (C := Demo.services Demo.ok_reply)
                      Demo.props Demo.events Demo.state Demo.signed_out_full))
        = false).
Proof.
  intros H. destruct H as [_ H]; [reflexivity|].
  vm_compute in H. discriminate H.
Qed.

Lemma C2_witness :
  items Demo.signed_out !! lit "token" = None
  /\ existsb is_network_call
       (effects (handleSendFeedback (C := Demo.services Demo.ok_reply)
                   Demo.props Demo.events Demo.state Demo.signed_out))
     = false
  /\ List.filter is_toast
       (effects (handleSendFeedback (C := Demo.services Demo.ok_reply)
                   Demo.props Demo.events Demo.state Demo.signed_out))
     = [].
Proof.
  split; [reflexivity|].
  apply (C2_no_token_no_network_call (C := Demo.services Demo.ok_reply)
           Demo.props Demo.events Demo.state Demo.signed_out).
  reflexivity.
Defined.

Lemma C4_witness :
  effects (handleSendFeedback (C := Demo.services Demo.ok_reply)
             Demo.props Demo.events Demo.state Demo.signed_in)
  = [ CallOnSendFeedback; CallGetToken;
      StorageSetItem (lit "feedback-email") (lit "user@example.com");
      StorageGetItem (lit "token");
      CallSendFeedback (lit "secret")
        (make_feedback (C := Demo.services Demo.ok_reply)
           Demo.props Demo.events Demo.state (lit "secret"));
      HotToast
        (shareFeedbackToast_content (C := Demo.services Demo.ok_reply)
           (lit "ok")
           (lit "https://www.all-hands.dev/share?share_id=abc123")
           (lit "p@ss"))
        {| duration := Some 5000%Z; icon := None; position := None |} ].
Proof.
  apply (C4_success_toast (C := Demo.services Demo.ok_reply)
           Demo.props Demo.events Demo.state Demo.signed_in (lit "secret")
           {| Api.statusCode := 200;
              Api.body := {| Api.message := lit "ok";
                             Api.feedback_id := lit "abc123";
                             Api.password := lit "p@ss" |} |}).
  - reflexivity.
  - reflexivity.
  - discriminate.
  - reflexivity.
  - reflexivity.
Defined.

Lemma C5_witness :
  effects (handleSendFeedback (C := Demo.services Demo.error_reply)
             Demo.props Demo.events Demo.state Demo.signed_in)
  = [ CallOnSendFeedback; CallGetToken;
      StorageSetItem (lit "feedback-email") (lit "user@example.com");
      StorageGetItem (lit "token");
      CallSendFeedback (lit "secret")
        (make_feedback (C := Demo.services Demo.error_reply)
           Demo.props Demo.events Demo.state (lit "secret"));
      ToastError (lit "share-error") (lit "Failed to share: server error") ].
Proof.
  apply (C5_error_status_toast (C := Demo.services Demo.error_reply)
           Demo.props Demo.events Demo.state Demo.signed_in (lit "secret")
           {| Api.statusCode := 500;
              Api.body := {| Api.message := lit "server error";
                             Api.feedback_id := [];
                             Api.password := [] |} |}).
  - reflexivity.
  - reflexivity.
  - discriminate.
  - reflexivity.
  - discriminate.
Defined.

Lemma C6_witness :
  result (handleSendFeedback (C := Demo.services Demo.network_failure)
            Demo.props Demo.events Demo.state Demo.signed_in)
  = Normal tt
  /\ exists pre : list (Effect (list jsstring)),
       effects (handleSendFeedback (C := Demo.services Demo.network_failure)
                  Demo.props Demo.events Demo.state Demo.signed_in)
       = pre ++ [ToastError (lit "share-error")
                   (lit "Failed to share: TypeError: Failed to fetch")]
       /\ existsb is_toast pre = false.
Proof.
  apply (C6_exception_caught (C := Demo.services Demo.network_failure)
           Demo.props Demo.events Demo.state Demo.signed_in
           (mkError (lit "TypeError") (lit "Failed to fetch"))).
  reflexivity.
Defined.


Lemma C10_witness :
  effects (handleSendFeedback (C := Demo.services Demo.ok_reply)
             Demo.props Demo.events Demo.state Demo.signed_in_full)
  = [ CallOnSendFeedback; CallGetToken;
      StorageSetItem (lit "feedback-email") (lit "user@example.com");
      ToastError (lit "share-error")
        (lit "Failed to share: QuotaExceededError: The quota has been exceeded.") ]
  /\ existsb is_network_call
       (effects (handleSendFeedback (C := Demo.services Demo.ok_reply)
                   Demo.props Demo.events Demo.state Demo.signed_in_full))
     = false
  /\ result (handleSendFeedback (C := Demo.services Demo.ok_reply)
               Demo.props Demo.events Demo.state Demo.signed_in_full)
     = Normal tt
  /\ final_storage (handleSendFeedback (C := Demo.services Demo.ok_reply)
                      Demo.props Demo.events Demo.state Demo.signed_in_full)
     = Demo.signed_in_full.
Proof.
  apply (C10_storage_write_failure (C := Demo.services Demo.ok_reply)
           Demo.props Demo.events Demo.state Demo.signed_in_full
           Demo.quota_error).
  reflexivity.
Defined.

(** * Further properties of the component *)

(** ** The validity predicate *)

Lemma at_is_not_space : isWhiteSpace CH_AT = false.
Proof. reflexivity. Qed.

Lemma dot_is_not_space : isWhiteSpace CH_DOT = false.
Proof. reflexivity. Qed.

Lemma count_at_segment (l : jsstring) :
  Forall non_space_non_at l -> count_occ N.eq_dec l CH_AT = 0%nat.
Proof.
  intros H. apply count_occ_not_In. now apply segment_without_at.
Qed.

(** X1: a valid email holds no white space character and exactly one [@]. *)
Theorem X1_valid_no_space_one_at (s : jsstring) :
  isEmailValid s = true ->
  Forall non_space s /\ count_occ N.eq_dec s CH_AT = 1%nat.
Proof.
  intros Hv. apply isEmailValid_shape in Hv.
  destruct Hv as (l & d & tl & -> & _ & _ & _ & Hal & Had & Hat).
  split.
  - apply Forall_app. split; [now apply non_space_non_at_weaken|].
    constructor; [exact at_is_not_space|].
    apply Forall_app. split; [now apply non_space_non_at_weaken|].
    constructor; [exact dot_is_not_space|].
    now apply non_space_non_at_weaken.
  - rewrite count_occ_app, count_at_segment by assumption.
    rewrite count_occ_cons_eq by reflexivity.
    rewrite count_occ_app, count_at_segment by assumption.
    rewrite count_occ_cons_neq by discriminate.
    rewrite count_at_segment by assumption. reflexivity.
Qed.

Lemma X1_witness :
  isEmailValid (lit "user@example.com") = true
  /\ Forall non_space (lit "user@example.com")
  /\ count_occ N.eq_dec (lit "user@example.com") CH_AT = 1%nat.
Proof.
  split; [reflexivity|].
  apply (X1_valid_no_space_one_at (lit "user@example.com")). reflexivity.
Defined.

(** X2: a valid email has at least five characters, and it neither starts
    with [@] nor ends with [@]. *)
Theorem X2_valid_length_and_ends (s : jsstring) :
  isEmailValid s = true ->
  (5 <= length s)%nat
  /\ head s <> Some CH_AT
  /\ last s <> Some CH_AT.
Proof.
  intros Hv. apply isEmailValid_shape in Hv.
  destruct Hv as (l & d & tl & -> & Hl & Hd & Ht & Hal & Had & Hat).
  split; [|split].
  - rewrite length_app. cbn [length]. rewrite length_app. cbn [length].
    destruct l; [congruence|]. destruct d; [congruence|].
    destruct tl; [congruence|]. cbn [length]. lia.
  - destruct l as [|c l]; [congruence|]. cbn [app head].
    inversion Hal as [|? ? [_ Hc] _]; subst. congruence.
  - destruct (exists_last Ht) as (tl' & c & ->).
    replace (l ++ CH_AT :: d ++ CH_DOT :: tl' ++ [c])
      with ((l ++ CH_AT :: d ++ CH_DOT :: tl') ++ [c])
      by (rewrite <- !app_assoc; cbn [app]; rewrite <- app_assoc; reflexivity).
    rewrite last_snoc.
    apply Forall_app in Hat as [_ Hc].
    inversion Hc as [|? ? [_ Hc'] _]; subst. congruence.
Qed.

Lemma X2_witness :
  isEmailValid (lit "a@b.c") = true
  /\ (5 <= length (lit "a@b.c"))%nat
  /\ head (lit "a@b.c") <> Some CH_AT
  /\ last (lit "a@b.c") <> Some CH_AT.
Proof.
  split; [reflexivity|].
  apply (X2_valid_length_and_ends (lit "a@b.c")). reflexivity.
Defined.

(** X3: a valid email stays valid when a character other than white space
    and [@] is typed at its end or at its beginning; a further dot is such
    a character. *)
Theorem X3_valid_extends (s : jsstring) (c : code_unit) :
  isEmailValid s = true ->
  non_space_non_at c ->
  isEmailValid (s ++ [c]) = true /\ isEmailValid (c :: s) = true.
Proof.
  intros Hv Hc. apply isEmailValid_shape in Hv.
  destruct Hv as (l & d & tl & -> & Hl & Hd & Ht & Hal & Had & Hat).
  split; apply isEmailValid_shape.
  - exists l, d, (tl ++ [c]). repeat split; auto.
    + rewrite <- !app_assoc. cbn [app]. rewrite <- app_assoc. reflexivity.
    + destruct tl; discriminate.
    + apply Forall_app. split; [exact Hat|]. constructor; [exact Hc|constructor].
  - exists (c :: l), d, tl. repeat split; auto; discriminate.
Qed.

Lemma X3_witness :
  isEmailValid (lit "a@b.c") = true
  /\ non_space_non_at CH_DOT
  /\ isEmailValid (lit "a@b.c" ++ [CH_DOT]) = true
  /\ isEmailValid (CH_DOT :: lit "a@b.c") = true.
Proof.
  assert (H : non_space_non_at CH_DOT) by (split; [reflexivity | discriminate]).
  split; [reflexivity|]. split; [exact H|].
  apply (X3_valid_extends (lit "a@b.c") CH_DOT); [reflexivity | exact H].
Defined.

(** ** Mounting and the dialog state *)

(** X4: mounting reads ["feedback-email"] once, leaves the storage as it
    is, and the dialog starts with the stored email, or with the empty
    string when none is stored, and with the private permission. *)
Theorem X4_mount_restores_email {C : Collaborators} (s : Storage) :
  mountEffect s
  = (Normal (Mounted (items s !! lit "feedback-email")), s,
     [StorageGetItem (lit "feedback-email")])
  /\ email (mount s) = default [] (items s !! lit "feedback-email")
  /\ permissions (mount s) = private.
Proof.
  split; [reflexivity|].
  unfold mount, mountEffect, localStorage_getItem, bind, emit, ret.
  cbn [result fst].
  destruct (items s !! lit "feedback-email") as [[|c v]|]; repeat split.
Qed.

Lemma fold_update_permissions_kept (evs : list DialogEvent) (st : DialogState) :
  (forall v : Permissions, ~ In (PermissionsSelected v) evs) ->
  permissions (fold_left update evs st) = permissions st.
Proof.
  revert st. induction evs as [|ev evs IH]; intros st Hno; [reflexivity|].
  cbn [fold_left]. rewrite IH.
  - destruct ev as [[[|c v]|] | newEmail | value]; try reflexivity.
    exfalso. apply (Hno value). left. reflexivity.
  - intros v Hin. apply (Hno v). right. exact Hin.
Qed.

(** X5: the permission of the dialog is the one selected last, whatever
    mounting and email edits come after the selection. *)
Theorem X5_permissions_last_selection
    (before after : list DialogEvent) (value : Permissions) (st : DialogState) :
  (forall v : Permissions, ~ In (PermissionsSelected v) after) ->
  permissions (fold_left update (before ++ PermissionsSelected value :: after) st)
  = value.
Proof.
  intros Hno. rewrite fold_left_app. cbn [fold_left].
  rewrite fold_update_permissions_kept by exact Hno. reflexivity.
Qed.

Lemma X5_witness :
  permissions
    (fold_left update
       ([EmailInput (lit "a")]
          ++ PermissionsSelected public
          :: [EmailInput (lit "a@b.c"); Mounted (Some (lit "x@y.z"))])
       initialState)
  = public.
Proof.
  apply (X5_permissions_last_selection
           [EmailInput (lit "a")]
           [EmailInput (lit "a@b.c"); Mounted (Some (lit "x@y.z"))]
           public initialState).
  intros v [H | [H | []]]; discriminate H.
Defined.

(** ** The toast of a successful submission *)

(** X6: the share toast has two clickable elements, and a click on either
    writes the password, and nothing else, to the clipboard once, shows the
    confirmation toast and leaves the storage as it is. *)
Theorem X6_click_copies_password {C : Collaborators}
    (message link password : jsstring) (h : Handler) (s : Storage) :
  In h (jsx_handlers (shareFeedbackToast_content message link password)) ->
  length (jsx_handlers (shareFeedbackToast_content message link password))
  = 2%nat
  /\ run_handler h s
     = (Normal tt, s,
        [ ClipboardWriteText password;
          HotToast (JsxText (t FEEDBACK_PASSWORD_COPIED_MESSAGE))
            {| duration := None;
               icon := Some [55357; 56523];
               position := Some (lit "bottom-right") |} ]).
Proof.
  intros Hin. split; [reflexivity|].
  cbn in Hin. destruct Hin as [<- | [<- | []]]; reflexivity.
Qed.

Lemma X6_witness :
  run_handler (C := Demo.services Demo.ok_reply)
    (OnPressToast (lit "p@ss")) Demo.signed_in
  = (Normal tt, Demo.signed_in,
     [ ClipboardWriteText (lit "p@ss");
       HotToast (JsxText (lit "Password copied to clipboard."))
         {| duration := None;
            icon := Some [55357; 56523];
            position := Some (lit "bottom-right") |} ]).
Proof.
  apply (X6_click_copies_password (C := Demo.services Demo.ok_reply)
           (lit "ok") (lit "https://www.all-hands.dev/share?share_id=abc123")
           (lit "p@ss") (OnPressToast (lit "p@ss")) Demo.signed_in).
  cbn. left. reflexivity.
Defined.

(** ** More on the submission handler *)

Section SubmissionFrame.

Context {C : Collaborators}.
Variables (props : FeedbackModalProps) (events : Trajectory) (st : DialogState).

(** Unfold a submission from [s] and split on the storage fault, the stored
    token, the settled service call and the status of its response. *)
Ltac submission_cases s :=
  rewrite ?handleSendFeedback_eq, ?guarded_region_eq; cbv zeta;
  destruct (fault s) as [?e|] eqn:?Hfault;
  [| destruct (items s !! lit "token") as [[|?c ?tok]|] eqn:?Htoken;
     [| destruct (sendFeedback _ _) as [?response|?e] eqn:?Hsend;
        [destruct (Api.statusCode _ =? 200)%Z eqn:?Hstatus|] |]].

Ltac in_effects H :=
  cbn [effects snd app In] in H;
  repeat (destruct H as [H|H]; [try discriminate H|]); try contradiction.

Lemma final_storage_eq (s : Storage) :
  final_storage (handleSendFeedback props events st s)
  = match fault s with
    | Some _ => s
    | None => email_stored st s
    end.
Proof. submission_cases s; reflexivity. Qed.

(** X7: a submission changes no storage key other than ["feedback-email"],
    the stored credential among them. *)
Theorem X7_storage_frame (s : Storage) (k : jsstring) :
  k <> lit "feedback-email" ->
  items (final_storage (handleSendFeedback props events st s)) !! k
  = items s !! k.
Proof.
  intros Hk. rewrite final_storage_eq.
  destruct (fault s) as [e|] eqn:Hf; [reflexivity|].
  unfold email_stored. cbn [items].
  apply lookup_insert_ne. congruence.
Qed.

(** X8: after a submission on a storage that accepts writes, a dialog
    mounted anew starts with the submitted email, and with the private
    permission whatever permission was submitted. *)
Theorem X8_submit_then_mount (s : Storage) :
  fault s = None ->
  email (mount (final_storage (handleSendFeedback props events st s)))
  = email st
  /\ permissions (mount (final_storage (handleSendFeedback props events st s)))
     = private.
Proof.
  intros Hf.
  destruct (X4_mount_restores_email
              (final_storage (handleSendFeedback props events st s)))
    as (_ & -> & ->).
  split; [|reflexivity].
  rewrite final_storage_eq, Hf. unfold email_stored. cbn [items].
  rewrite lookup_insert_eq. reflexivity.
Qed.

(** X10: the feedback service is called exactly when the storage accepts
    the write and a non-empty credential is stored under ["token"]; an
    empty stored string counts as no credential.  The validity of the email
    plays no part. *)
Theorem X10_network_call_iff (s : Storage) :
  existsb is_network_call (effects (handleSendFeedback props events st s))
  = match fault s with
    | Some _ => false
    | None => truthy (items s !! lit "token")
    end.
Proof. submission_cases s; reflexivity. Qed.

(** X11: a submission calls the feedback service at most once and shows at
    most one toast: one toast when the storage refuses the write, and
    otherwise one toast per call of the service. *)
Theorem X11_one_call_one_toast (s : Storage) :
  (length (List.filter is_network_call
             (effects (handleSendFeedback props events st s))) <= 1)%nat
  /\ length (List.filter is_toast
               (effects (handleSendFeedback props events st s)))
     = match fault s with
       | Some _ => 1%nat
       | None =>
           length (List.filter is_network_call
                     (effects (handleSendFeedback props events st s)))
       end.
Proof.
  submission_cases s; cbn; split; (reflexivity || lia).
Qed.

(** X12: the service is called with the credential stored under ["token"],
    and the record it receives has version ["1.0"], the polarity of the
    props, the email and the permission of the dialog state, the value of
    [getToken()] and the trajectory cleaned by [removeUnwantedKeys] and then
    [removeApiKey]. *)
Theorem X12_request_content
    (s : Storage) (tok : jsstring) (fb : Api.Feedback Trajectory) :
  In (CallSendFeedback tok fb) (effects (handleSendFeedback props events st s)) ->
  items s !! lit "token" = Some tok
  /\ tok <> []
  /\ Api.version fb = lit "1.0"
  /\ Api.feedback fb = polarity props
  /\ Api.email fb = email st
  /\ Api.permissions fb = permissions st
  /\ Api.token fb = getToken s
  /\ Api.trajectory fb = removeApiKey (removeUnwantedKeys events).
Proof.
  revert tok fb.
  assert (Hgen : forall tok fb,
    In (CallSendFeedback tok fb) (effects (handleSendFeedback props events st s)) ->
    items s !! lit "token" = Some tok /\ tok <> []
    /\ fb = make_feedback props events st (getToken s)).
  { intros tok fb. submission_cases s; intros H; in_effects H;
      injection H as <- <-; repeat split; auto; discriminate. }
  intros tok fb H. destruct (Hgen tok fb H) as (Ht & Hne & ->).
  repeat split; auto.
Qed.

(** X13: every error toast of a submission has the identifier
    ["share-error"] and a text that starts with the localized "failed to
    share" prefix and a space. *)
Theorem X13_error_toast_format (s : Storage) (id msg : jsstring) :
  In (ToastError id msg) (effects (handleSendFeedback props events st s)) ->
  id = lit "share-error"
  /\ exists detail : jsstring,
       msg = t FEEDBACK_FAILED_TO_SHARE ++ lit " " ++ detail.
Proof.
  submission_cases s; intros H; in_effects H;
    injection H as <- <-; (split; [reflexivity|]); eexists; reflexivity.
Qed.

(** X14: a share toast is shown only after the service answered a call made
    with the stored credential with status 200; its content is built from
    that response and it stays for 5000 ms. *)
Theorem X14_share_toast_only_on_200
    (s : Storage) (content : jsx) (options : ToastOptions) :
  In (HotToast content options)
     (effects (handleSendFeedback props events st s)) ->
  exists (tok : jsstring) (response : Api.FeedbackResponse),
    items s !! lit "token" = Some tok
    /\ sendFeedback tok (make_feedback props events st (getToken s))
       = Normal response
    /\ Api.statusCode response = 200%Z
    /\ content
       = shareFeedbackToast_content
           (Api.message (Api.body response))
           (VIEWER_PAGE ++ lit "?share_id="
              ++ Api.feedback_id (Api.body response))
           (Api.password (Api.body response))
    /\ duration options = Some 5000%Z.
Proof.
  submission_cases s; intros H; in_effects H.
  injection H as <- <-.
  eexists _, _. split; [reflexivity|]. split; [exact Hsend|].
  split; [now apply Z.eqb_eq|]. split; reflexivity.
Qed.

End SubmissionFrame.

(** X9: submitting the same dialog state again, with any props and events,
    leaves the storage as the first submission left it. *)
Theorem X9_resubmit_storage {C : Collaborators}
    (props props' : FeedbackModalProps) (events events' : Trajectory)
    (st : DialogState) (s : Storage) :
  final_storage
    (handleSendFeedback props' events' st
       (final_storage (handleSendFeedback props events st s)))
  = final_storage (handleSendFeedback props events st s).
Proof.
  rewrite !final_storage_eq.
  destruct (fault s) as [e|] eqn:Hf.
  - rewrite Hf. reflexivity.
  - unfold email_stored. cbn [fault items].
    rewrite Hf, insert_insert_eq. reflexivity.
Qed.

(** ** The further properties on concrete runs *)

Lemma X7_witness :
  lit "token" <> lit "feedback-email"
  /\ items (final_storage
              (handleSendFeedback (C := Demo.services Demo.ok_reply)
                 Demo.props Demo.events Demo.state Demo.signed_in))
       !! lit "token"
     = Some (lit "secret").
Proof.
  assert (Hk : lit "token" <> lit "feedback-email") by discriminate.
  split; [exact Hk|].
  rewrite (X7_storage_frame (C := Demo.services Demo.ok_reply)
             Demo.props Demo.events Demo.state Demo.signed_in
             (lit "token") Hk).
  reflexivity.
Defined.

Lemma X8_witness :
  fault Demo.signed_in = None
  /\ email (mount (C := Demo.services Demo.ok_reply)
              (final_storage
                 (handleSendFeedback (C := Demo.services Demo.ok_reply)
                    Demo.props Demo.events Demo.state Demo.signed_in)))
     = lit "user@example.com".
Proof.
  split; [reflexivity|].
  apply (X8_submit_then_mount (C := Demo.services Demo.ok_reply)
           Demo.props Demo.events Demo.state Demo.signed_in).
  reflexivity.
Defined.

Lemma X12_witness :
  items Demo.signed_in !! lit "token" = Some (lit "secret")
  /\ lit "secret" <> []
  /\ Api.version
       (make_feedback (C := Demo.services Demo.ok_reply)
          Demo.props Demo.events Demo.state (lit "secret"))
     = lit "1.0".
Proof.
  destruct (X12_request_content (C := Demo.services Demo.ok_reply)
              Demo.props Demo.events Demo.state Demo.signed_in
              (lit "secret")
              (make_feedback (C := Demo.services Demo.ok_reply)
                 Demo.props Demo.events Demo.state (lit "secret")))
    as (H1 & H2 & H3 & _).
  - vm_compute. do 4 right. left. reflexivity.
  - repeat split; assumption.
Defined.

Lemma X13_witness :
  lit "share-error" = lit "share-error"
  /\ exists detail : jsstring,
       lit "Failed to share: TypeError: Failed to fetch"
       = lit "Failed to share:" ++ lit " " ++ detail.
Proof.
  apply (X13_error_toast_format (C := Demo.services Demo.network_failure)
           Demo.props Demo.events Demo.state Demo.signed_in
           (lit "share-error")
           (lit "Failed to share: TypeError: Failed to fetch")).
  vm_compute. do 5 right. left. reflexivity.
Defined.

Lemma X14_witness :
  exists (tok : jsstring) (response : Api.FeedbackResponse),
    items Demo.signed_in !! lit "token" = Some tok
    /\ Demo.ok_reply = Normal response
    /\ Api.statusCode response = 200%Z
    /\ shareFeedbackToast_content (C := Demo.services Demo.ok_reply)
         (lit "ok") (lit "https://www.all-hands.dev/share?share_id=abc123")
         (lit "p@ss")
       = shareFeedbackToast_content (C := Demo.services Demo.ok_reply)
           (Api.message (Api.body response))
           (VIEWER_PAGE ++ lit "?share_id="
              ++ Api.feedback_id (Api.body response))
           (Api.password (Api.body response))
    /\ Some 5000%Z = Some 5000%Z.
Proof.
  apply (X14_share_toast_only_on_200 (C := Demo.services Demo.ok_reply)
           Demo.props Demo.events Demo.state Demo.signed_in
           (shareFeedbackToast_content (C := Demo.services Demo.ok_reply)
              (lit "ok")
              (lit "https://www.all-hands.dev/share?share_id=abc123")
              (lit "p@ss"))
           {| duration := Some 5000%Z; icon := None; position := None |}).
  vm_compute. do 5 right. left. reflexivity.
Defined.
